(** * tts_server.py: the [/synthesize] request handler

    A shallow embedding of the Flask handler [synthesize] of
    [tts_server.py] together with the pieces of the Python runtime it
    relies on: truthiness of JSON values, [dict.get], [uuid.uuid4().hex],
    the f-string that builds the file name and [os.path.join].

    The handler is effectful: it draws 16 bytes from the operating system's
    random generator (inside [uuid.uuid4]) and calls the preloaded speech
    model ([tts.tts_to_file]), which writes to the filesystem and may
    raise.  Effects are modelled by explicit state passing over a [world]
    and an [outcome] that is either a value or a raised exception. *)

From Stdlib Require Import NArith ZArith Ascii String List Lia.
From Stdlib Require Import SpecFloat.
From stdpp Require Import gmap strings list fin_maps.

Set Warnings "-register-all".

Local Open Scope N_scope.

(** ** Python values as produced by [request.json] *)

(** [json.loads] yields [None], [bool], [int], [float], [str], [list] and
    [dict] with string keys.  Floats are IEEE-754 binary values. *)
Inductive pyval : Type :=
  | PNone
  | PBool (b : bool)
  | PInt (z : Z)
  | PFloat (f : spec_float)
  | PStr (s : string)
  | PList (l : list pyval)
  | PDict (d : gmap string pyval).

(** Python's [bool(v)], which is what [not text] consults. *)
Definition truthy (v : pyval) : bool :=
  match v with
  | PNone => false
  | PBool b => b
  | PInt z => negb (Z.eqb z 0)
  | PFloat f => match f with S754_zero _ => false | _ => true end
  | PStr s => negb (Nat.eqb (String.length s) 0)
  | PList l => negb (Nat.eqb (List.length l) 0)
  | PDict d => negb (Nat.eqb (size d) 0)
  end.

(** [type(v).__name__] *)
Definition type_name (v : pyval) : string :=
  match v with
  | PNone => "NoneType"
  | PBool _ => "bool"
  | PInt _ => "int"
  | PFloat _ => "float"
  | PStr _ => "str"
  | PList _ => "list"
  | PDict _ => "dict"
  end.

(** ** Exceptions and outcomes *)

Record exn : Type := Exn { exn_class : string; exn_msg : string }.

Definition AttributeError (v : pyval) (attr : string) : exn :=
  Exn "AttributeError"
      ("'" +:+ type_name v +:+ "' object has no attribute '" +:+ attr +:+ "'").

Inductive outcome (A : Type) : Type :=
  | Return (a : A)
  | Raise (e : exn).
Arguments Return {A} a.
Arguments Raise {A} e.

(** [data.get(key, dflt)]: only [dict] has a [get] attribute. *)
Definition py_get (data : pyval) (key : string) (dflt : pyval) : outcome pyval :=
  match data with
  | PDict d => Return (default dflt (d !! key))
  | _ => Raise (AttributeError data "get")
  end.

(** ** Hexadecimal formatting: ['%032x' % n] *)

Definition hex_alphabet : string := "0123456789abcdef".

Definition hex_digit (d : N) : ascii :=
  match String.get (N.to_nat d) hex_alphabet with
  | Some c => c
  | None => "0"%char
  end.

(** Digits of [n], least significant first, pushed in front of [acc].
    Each step drops four bits, so the bit length of [n] is enough fuel
    (see [parse_hex_format_x]). *)
Fixpoint hex_digits (fuel : nat) (n : N) (acc : string) : string :=
  match fuel with
  | O => acc
  | S fuel' =>
      if n =? 0 then acc
      else hex_digits fuel' (N.shiftr n 4) (String (hex_digit (N.land n 15)) acc)
  end.

(** ['%x' % n] for a non-negative [n]. *)
Definition format_x (n : N) : string :=
  if n =? 0 then "0" else hex_digits (N.to_nat (N.size n)) n "".

Fixpoint string_repeat (c : ascii) (k : nat) : string :=
  match k with
  | O => ""
  | S k' => String c (string_repeat c k')
  end.

(** The [0] flag with a minimum field width. *)
Definition zero_pad (width : nat) (s : string) : string :=
  string_repeat "0" (width - String.length s) +:+ s.

Definition format_032x (n : N) : string := zero_pad 32 (format_x n).

(** Character classes used to state the shape of a token. *)
Definition is_lower_hex (c : ascii) : bool :=
  let k := N_of_ascii c in
  ((48 <=? k) && (k <=? 57)) || ((97 <=? k) && (k <=? 102)).

Fixpoint all_lower_hex (s : string) : bool :=
  match s with
  | "" => true
  | String c s' => is_lower_hex c && all_lower_hex s'
  end.

(** Reading a hexadecimal numeral back ([int(s, 16)]); used to show that
    formatting loses no information. *)
Definition hex_value (c : ascii) : N :=
  let k := N_of_ascii c in
  if (48 <=? k) && (k <=? 57) then k - 48
  else if (97 <=? k) && (k <=? 102) then k - 87
  else 0.

Fixpoint parse_hex_from (acc : N) (s : string) : N :=
  match s with
  | "" => acc
  | String c s' => parse_hex_from (16 * acc + hex_value c) s'
  end.

Definition parse_hex (s : string) : N := parse_hex_from 0 s.

(** ** [uuid.UUID(bytes=..., version=4)] and its [hex] property *)

(** [int.from_bytes(bs)], big-endian. *)
Definition int_from_bytes (bs : list Byte.byte) : N :=
  fold_left (fun acc b => acc * 256 + Byte.to_N b) bs 0.

(** The constructor's [version] branch: set the RFC 4122 variant, then the
    version number. *)
Definition set_version (version : N) (int : N) : N :=
  let int := N.ldiff int (N.shiftl 0xc000 48) in
  let int := N.lor int (N.shiftl 0x8000 48) in
  let int := N.ldiff int (N.shiftl 0xf000 64) in
  N.lor int (N.shiftl version 76).

Record UUID : Type := MkUUID { uuid_int : N }.

Definition UUID_of_bytes (bs : list Byte.byte) : UUID :=
  MkUUID (set_version 4 (int_from_bytes bs)).

Definition uuid_hex (u : UUID) : string := format_032x (uuid_int u).

(** ** [os.path.join] and [os.path.isabs] (posixpath, two arguments) *)

Definition startswith_sep (s : string) : bool :=
  match s with
  | String "/" _ => true
  | _ => false
  end.

Fixpoint endswith_sep (s : string) : bool :=
  match s with
  | "" => false
  | String c "" => Ascii.eqb c "/"
  | String _ s' => endswith_sep s'
  end.

Definition path_join (a b : string) : string :=
  if startswith_sep b then b
  else if (Nat.eqb (String.length a) 0) || endswith_sep a then a +:+ b
  else a +:+ "/" +:+ b.

Definition isabs (s : string) : bool := startswith_sep s.

(** [os.path.exists] on the modelled filesystem. *)
Definition file_exists (fs : gmap string (list Byte.byte)) (path : string) : bool :=
  bool_decide (is_Some (fs !! path)).

(** ** Module-level constants of [tts_server.py] *)

Definition OUTPUT_DIR : string := "/home/pi/.node-red/static/audio/tts".

(** ** The world the handler runs in *)

Abbreviation filesystem := (gmap string (list Byte.byte)).

(** What the handler asks of its environment, in order. *)
Inductive effect : Type :=
  | EUrandom (n : nat)
  | ETtsToFile (text : pyval) (file_path : string).

Record world : Type := World {
  files : filesystem;      (* path -> content of every existing file *)
  rand_pos : nat;          (* random bytes consumed so far *)
  trace : list effect      (* environment requests made so far *)
}.

(** Computations that read and update the world and may raise. *)
Definition M (A : Type) : Type := world -> outcome A * world.

#[global] Instance M_ret : MRet M := fun A a w => (Return a, w).
#[global] Instance M_bind : MBind M := fun A B k m w =>
  match m w with
  | (Return a, w') => k a w'
  | (Raise e, w') => (Raise e, w')
  end.

Definition lift {A : Type} (o : outcome A) : M A := fun w => (o, w).

(** ** Flask responses *)

Record response : Type := Response { body : pyval; status : Z }.

(** [jsonify(d)] wraps a dictionary as the JSON payload of a response. *)
Definition jsonify (d : gmap string pyval) : pyval := PDict d.

(** A view returns either a payload or a [(payload, status)] tuple. *)
Inductive view_return : Type :=
  | Body (payload : pyval)
  | BodyStatus (payload : pyval) (code : Z).

(** Flask's [make_response]: the status defaults to 200. *)
Definition make_response (v : view_return) : response :=
  match v with
  | Body p => Response p 200
  | BodyStatus p c => Response p c
  end.

Section Handler.

(** [os_random i] is the [i]-th byte the operating system's generator
    hands out; [model text path fs] is what the preloaded speech model's
    [tts_to_file] does to the filesystem, with the exception it raises,
    if any. *)
Variable os_random : nat -> Byte.byte.
Variable model : pyval -> string -> filesystem -> filesystem * option exn.

(** [os.urandom(n)] *)
Definition urandom (n : nat) : M (list Byte.byte) := fun w =>
  (Return (map os_random (seq (rand_pos w) n)),
   World (files w) (rand_pos w + n) (trace w ++ [EUrandom n])).

(** [uuid.uuid4()] is [UUID(bytes=os.urandom(16), version=4)]. *)
Definition uuid4 : M UUID :=
  bs ← urandom 16; mret (UUID_of_bytes bs).

(** [tts.tts_to_file(text=..., file_path=...)]; its return value is
    not used by the handler. *)
Definition tts_to_file (text : pyval) (file_path : string) : M unit := fun w =>
  let '(fs', err) := model text file_path (files w) in
  let w' := World fs' (rand_pos w) (trace w ++ [ETtsToFile text file_path]) in
  match err with
  | None => (Return tt, w')
  | Some e => (Raise e, w')
  end.

(** [f"tts_{u.hex}.wav"] *)
Definition make_filename (u : UUID) : string :=
  "tts_" +:+ uuid_hex u +:+ ".wav".

(** The view function; [data] is [request.json]. *)
Definition synthesize (data : pyval) : M view_return :=
  text ← lift (py_get data "text" (PStr ""));
  if negb (truthy text) then
    mret (BodyStatus (jsonify {[ "error" := PStr "No text provided" ]}) 400)
  else
    u ← uuid4;
    let filename := make_filename u in
    let filepath := path_join OUTPUT_DIR filename in
    _ ← tts_to_file text filepath;
    mret (Body (jsonify {[ "audio_path" := PStr filepath ]})).

(** The token and the path the next accepted request will use in [w]. *)
Definition next_uuid (w : world) : UUID :=
  UUID_of_bytes (map os_random (seq (rand_pos w) 16)).

Definition next_filepath (w : world) : string :=
  path_join OUTPUT_DIR (make_filename (next_uuid w)).

(** The world once the token was drawn and the model was called. *)
Definition after_call (text : pyval) (w : world) : world :=
  World (fst (model text (next_filepath w) (files w)))
        (rand_pos w + 16)
        (trace w ++ [EUrandom 16; ETtsToFile text (next_filepath w)]).

End Handler.

(** ** The specification's reading of validation *)

(** Follows the specification's words ("non-empty after trimming"), not
    the source: [tts_server.py] has no trimming step.  This is Python's
    [str.strip()] on ASCII text and serves only to state the trimmed
    reading of validation and compare it with [synthesize]. *)
Definition is_py_space (c : ascii) : bool :=
  match c with
  | "009" | "010" | "011" | "012" | "013"
  | "028" | "029" | "030" | "031" | " " => true
  | _ => false
  end%char.

Fixpoint lstrip (s : string) : string :=
  match s with
  | "" => ""
  | String c s' => if is_py_space c then lstrip s' else s
  end.

Definition spec_trim (s : string) : string :=
  String.rev (lstrip (String.rev (lstrip s))).

(** ** Concrete environments used to run the handler *)

(** A generator whose [i]-th byte is [7 * i + 3] (modulo 256). *)
Definition sample_random (i : nat) : Byte.byte :=
  default Byte.x00 (Byte.of_N (N.of_nat (7 * i + 3) mod 256)).

Definition riff : list Byte.byte := [Byte.x52; Byte.x49; Byte.x46; Byte.x46].

(** A model that writes the four bytes [riff] at its destination. *)
Definition model_ok (text : pyval) (path : string) (fs : filesystem)
  : filesystem * option exn :=
  (<[path := riff]> fs, None).

(** A model that leaves an empty file behind and raises. *)
Definition model_fail (text : pyval) (path : string) (fs : filesystem)
  : filesystem * option exn :=
  (<[path := []]> fs, Some (Exn "RuntimeError" "synthesis failed")).

Definition empty_world : world := World ∅ 0 [].

Definition sample_path : string :=
  "/home/pi/.node-red/static/audio/tts/tts_030a11181f264d34bb424950575e656c.wav".

(** The path of a second request, drawn from bytes 16 to 31. *)
Definition sample_path_next : string :=
  "/home/pi/.node-red/static/audio/tts/tts_737a81888f964da4abb2b9c0c7ced5dc.wav".

Definition hello : gmap string pyval := {[ "text" := PStr "hello world" ]}.

(** The 400 payload of the validation branch. *)
Definition no_text_response : view_return :=
  BodyStatus (jsonify {[ "error" := PStr "No text provided" ]}) 400.

(** ** Runs of several requests *)

(** The value that reaches the model, if the request gets that far:
    [data.get("text", "")] when [data] is a dictionary and the value is
    truthy (lines 40 to 43 of the handler). *)
Definition request_text (data : pyval) : option pyval :=
  match py_get data "text" (PStr "") with
  | Return text => if truthy text then Some text else None
  | Raise _ => None
  end.

(** The [tts_to_file] calls recorded in a trace, oldest first. *)
Definition tts_calls (tr : list effect) : list (pyval * string) :=
  omap (fun e => match e with
                 | ETtsToFile text path => Some (text, path)
                 | EUrandom _ => None
                 end) tr.

(** Does a string contain the path separator? *)
Fixpoint has_sep (s : string) : bool :=
  match s with
  | "" => false
  | String c s' => Ascii.eqb c "/" || has_sep s'
  end.

(** [k] hexadecimal digits of [n], most significant first: the digit at
    position [i] from the left is bits [4 * (k - 1 - i)] and up.  Used to
    read individual characters of a token. *)
Fixpoint fixed_hex (k : nat) (n : N) : string :=
  match k with
  | O => ""
  | S k' => String (hex_digit (N.land (N.shiftr n (4 * N.of_nat k')) 15))
                   (fixed_hex k' n)
  end.

Section Serving.

Variable os_random : nat -> Byte.byte.
Variable model : pyval -> string -> filesystem -> filesystem * option exn.

(** The path built from the 16 random bytes starting at position [r]. *)
Definition path_at (r : nat) : string :=
  path_join OUTPUT_DIR (make_filename (UUID_of_bytes (map os_random (seq r 16)))).

(** Requests handled one after the other, each in the world the previous
    one left; a raised exception ends that request only. *)
Fixpoint handle_all (reqs : list pyval) (w : world)
  : list (outcome view_return) * world :=
  match reqs with
  | [] => ([], w)
  | data :: rest =>
      let '(o, w1) := synthesize os_random model data w in
      let '(os, w2) := handle_all rest w1 in
      (o :: os, w2)
  end.

End Serving.

(** A model that only ever touches its destination path. *)
Definition writes_only_destination
    (model : pyval -> string -> filesystem -> filesystem * option exn) : Prop :=
  forall text path fs q, q <> path -> fst (model text path fs) !! q = fs !! q.


(** ** Strings *)

Section StringFacts.

Lemma string_app_cons (c : ascii) (s t : string) :
  String c s +:+ t = String c (s +:+ t).
Proof. reflexivity. Qed.

Lemma string_app_assoc (s t u : string) : (s +:+ t) +:+ u = s +:+ (t +:+ u).
Proof.
  induction s as [|c s IH]; [reflexivity|].
  now rewrite !string_app_cons, IH.
Qed.

Lemma string_length_app (s t : string) :
  String.length (s +:+ t) = (String.length s + String.length t)%nat.
Proof.
  induction s as [|c s IH]; [reflexivity|].
  rewrite string_app_cons. cbn. now rewrite IH.
Qed.

Lemma string_length_repeat (c : ascii) (k : nat) :
  String.length (string_repeat c k) = k.
Proof. induction k as [|k IH]; cbn; [reflexivity | now rewrite IH]. Qed.

(** Appending a common suffix is injective, like a common prefix. *)
Lemma string_app_inj_r (s1 s2 t : string) : s1 +:+ t = s2 +:+ t -> s1 = s2.
Proof.
  revert s2. induction s1 as [|c s1 IH]; intros [|d s2] E.
  - reflexivity.
  - apply (f_equal String.length) in E.
    rewrite !string_length_app in E. cbn in E. lia.
  - apply (f_equal String.length) in E.
    rewrite !string_length_app in E. cbn in E. lia.
  - rewrite !string_app_cons in E. injection E as -> E.
    f_equal. now apply IH.
Qed.

Lemma all_lower_hex_app (s t : string) :
  all_lower_hex (s +:+ t) = all_lower_hex s && all_lower_hex t.
Proof.
  induction s as [|c s IH]; [reflexivity|].
  rewrite string_app_cons. cbn. rewrite IH. now rewrite andb_assoc.
Qed.

Lemma all_lower_hex_repeat_zero (k : nat) :
  all_lower_hex (string_repeat "0" k) = true.
Proof. induction k as [|k IH]; cbn; [reflexivity | exact IH]. Qed.

End StringFacts.

(** ** Hexadecimal formatting *)

Section Hex.

(** Every nibble is printed as a lower-case digit that reads back. *)
Lemma hex_digit_spec (d : N) :
  d < 16 -> is_lower_hex (hex_digit d) = true /\ hex_value (hex_digit d) = d.
Proof.
  intros H.
  destruct d as [|p]; [split; reflexivity|].
  do 4 (destruct p as [p|p|]; try (split; reflexivity)); lia.
Qed.

Lemma nibble_lt (n : N) : N.land n 15 < 16.
Proof.
  change 15 with (N.ones 4). rewrite N.land_ones.
  apply N.mod_lt. discriminate.
Qed.

Lemma nibble_split (n : N) : 16 * N.shiftr n 4 + N.land n 15 = n.
Proof.
  change 15 with (N.ones 4). rewrite N.land_ones, N.shiftr_div_pow2.
  change (2 ^ 4) with 16. symmetry. apply N.div_mod. discriminate.
Qed.

Lemma hex_digits_acc (fuel : nat) : forall (n : N) (acc : string),
  hex_digits fuel n acc = hex_digits fuel n "" +:+ acc.
Proof.
  induction fuel as [|fuel IH]; intros n acc; cbn.
  - reflexivity.
  - destruct (n =? 0); [reflexivity|].
    rewrite IH, (IH _ (String _ "")).
    now rewrite string_app_assoc.
Qed.

Lemma parse_hex_from_app (s t : string) : forall acc,
  parse_hex_from acc (s +:+ t) = parse_hex_from (parse_hex_from acc s) t.
Proof.
  induction s as [|c s IH]; intros acc; [reflexivity|].
  rewrite string_app_cons. cbn. apply IH.
Qed.

(** With enough fuel the digits read back as the number. *)
Lemma parse_hex_digits (fuel : nat) : forall n : N,
  n < 2 ^ N.of_nat fuel -> parse_hex (hex_digits fuel n "") = n.
Proof.
  induction fuel as [|fuel IH]; intros n Hn.
  - cbn in *. lia.
  - cbn [hex_digits]. destruct (N.eqb_spec n 0) as [->|Hnz]; [reflexivity|].
    rewrite hex_digits_acc. unfold parse_hex.
    rewrite parse_hex_from_app. fold (parse_hex (hex_digits fuel (N.shiftr n 4) "")).
    rewrite IH.
    + cbn. destruct (hex_digit_spec _ (nibble_lt n)) as [_ ->].
      apply nibble_split.
    + rewrite N.shiftr_div_pow2. change (2 ^ 4) with 16.
      rewrite Nat2N.inj_succ, N.pow_succ_r' in Hn.
      apply N.Div0.div_lt_upper_bound. lia.
Qed.

Lemma parse_hex_format_x (n : N) : parse_hex (format_x n) = n.
Proof.
  unfold format_x. destruct (N.eqb_spec n 0) as [->|Hnz]; [reflexivity|].
  apply parse_hex_digits. rewrite N2Nat.id. apply N.size_gt.
Qed.

Lemma parse_hex_repeat_zero (k : nat) : forall s,
  parse_hex (string_repeat "0" k +:+ s) = parse_hex s.
Proof.
  induction k as [|k IH]; intros s; [reflexivity|].
  cbn [string_repeat]. rewrite string_app_cons.
  unfold parse_hex in *. cbn. apply IH.
Qed.

(** ['%032x'] loses no information: the numeral reads back as [n]. *)
Lemma parse_hex_format_032x (n : N) : parse_hex (format_032x n) = n.
Proof.
  unfold format_032x, zero_pad.
  rewrite parse_hex_repeat_zero. apply parse_hex_format_x.
Qed.

Lemma format_032x_inj (m n : N) : format_032x m = format_032x n -> m = n.
Proof.
  intros E. rewrite <- (parse_hex_format_032x m), E.
  apply parse_hex_format_032x.
Qed.

Lemma length_hex_digits (fuel : nat) : forall (n : N) (k : nat) (acc : string),
  n < 16 ^ N.of_nat k ->
  (String.length (hex_digits fuel n acc) <= k + String.length acc)%nat.
Proof.
  induction fuel as [|fuel IH]; intros n k acc Hn; cbn [hex_digits].
  - lia.
  - destruct (N.eqb_spec n 0) as [->|Hnz]; [lia|].
    destruct k as [|k]; [cbn in Hn; lia|].
    specialize (IH (N.shiftr n 4) k (String (hex_digit (N.land n 15)) acc)).
    cbn [String.length] in IH.
    etransitivity; [apply IH | lia].
    rewrite N.shiftr_div_pow2. change (2 ^ 4) with 16.
    rewrite Nat2N.inj_succ, N.pow_succ_r' in Hn.
    apply N.Div0.div_lt_upper_bound. lia.
Qed.

Lemma length_format_x (n : N) :
  n < 2 ^ 128 -> (1 <= String.length (format_x n) <= 32)%nat.
Proof.
  intros Hn. unfold format_x.
  destruct (N.eqb_spec n 0) as [->|Hnz]; [cbn; lia|].
  split.
  - destruct (N.to_nat (N.size n)) as [|fuel] eqn:Ef.
    + pose proof (N.size_gt n) as Hs.
      assert (N.size n = 0) as Hz by lia. rewrite Hz in Hs. cbn in Hs. lia.
    + cbn [hex_digits]. destruct (N.eqb_spec n 0); [contradiction|].
      rewrite hex_digits_acc, string_length_app. cbn. lia.
  - pose proof (length_hex_digits (N.to_nat (N.size n)) n 32 "") as H.
    cbn [String.length] in H. rewrite Nat.add_0_r in H. apply H.
    change (16 ^ N.of_nat 32) with (2 ^ 128). exact Hn.
Qed.

(** A 128-bit value is printed with exactly 32 characters. *)
Lemma length_format_032x (n : N) :
  n < 2 ^ 128 -> String.length (format_032x n) = 32%nat.
Proof.
  intros Hn. unfold format_032x, zero_pad.
  rewrite string_length_app, string_length_repeat.
  pose proof (length_format_x n Hn). lia.
Qed.

Lemma all_lower_hex_digits (fuel : nat) : forall (n : N) (acc : string),
  all_lower_hex acc = true -> all_lower_hex (hex_digits fuel n acc) = true.
Proof.
  induction fuel as [|fuel IH]; intros n acc Hacc; cbn [hex_digits].
  - exact Hacc.
  - destruct (n =? 0); [exact Hacc|].
    apply IH. cbn [all_lower_hex].
    destruct (hex_digit_spec _ (nibble_lt n)) as [-> _]. exact Hacc.
Qed.

Lemma all_lower_hex_format_032x (n : N) : all_lower_hex (format_032x n) = true.
Proof.
  unfold format_032x, zero_pad.
  rewrite all_lower_hex_app, all_lower_hex_repeat_zero. cbn [andb].
  unfold format_x. destruct (n =? 0); [reflexivity|].
  now apply all_lower_hex_digits.
Qed.

End Hex.

(** ** UUIDs *)

Section Uuid.

Lemma fold_bytes_lt (bs : list Byte.byte) : forall acc k,
  acc < 256 ^ k ->
  fold_left (fun a b => a * 256 + Byte.to_N b) bs acc
    < 256 ^ (k + N.of_nat (List.length bs)).
Proof.
  induction bs as [|b bs IH]; intros acc k Hacc; cbn [fold_left List.length].
  - now rewrite N.add_0_r.
  - rewrite Nat2N.inj_succ, <- N.add_succ_comm. apply IH.
    rewrite N.pow_succ_r'. pose proof (Byte.to_N_bounded b). lia.
Qed.

Lemma int_from_bytes_lt (bs : list Byte.byte) :
  int_from_bytes bs < 256 ^ N.of_nat (List.length bs).
Proof.
  unfold int_from_bytes.
  apply (fold_bytes_lt bs 0 0). cbn. lia.
Qed.

Lemma lor_lt_pow2 (a b n : N) : a < 2 ^ n -> b < 2 ^ n -> N.lor a b < 2 ^ n.
Proof.
  intros Ha Hb.
  destruct (N.eq_dec a 0) as [->|Hna]; [now rewrite N.lor_0_l|].
  destruct (N.eq_dec b 0) as [->|Hnb]; [now rewrite N.lor_0_r|].
  assert (N.lor a b <> 0) as Hne.
  { intros E. apply N.lor_eq_0_iff in E. tauto. }
  apply N.log2_lt_pow2; [lia|].
  rewrite N.log2_lor. apply N.max_lub_lt; apply N.log2_lt_pow2; lia.
Qed.

Lemma set_version_lt (int : N) : int < 2 ^ 128 -> set_version 4 int < 2 ^ 128.
Proof.
  intros H. unfold set_version.
  apply lor_lt_pow2; [|reflexivity].
  eapply N.le_lt_trans; [apply N.ldiff_le_l|].
  apply lor_lt_pow2; [|reflexivity].
  eapply N.le_lt_trans; [apply N.ldiff_le_l | exact H].
Qed.

(** A version-4 UUID built from 16 bytes is a 128-bit value. *)
Lemma uuid_int_lt (bs : list Byte.byte) :
  List.length bs = 16%nat -> uuid_int (UUID_of_bytes bs) < 2 ^ 128.
Proof.
  intros Hlen. cbn [UUID_of_bytes uuid_int]. apply set_version_lt.
  pose proof (int_from_bytes_lt bs) as H. rewrite Hlen in H. exact H.
Qed.

Lemma uuid_hex_inj (u v : UUID) : uuid_hex u = uuid_hex v -> u = v.
Proof.
  destruct u as [m], v as [n]. unfold uuid_hex. cbn [uuid_int].
  intros E. f_equal. now apply format_032x_inj.
Qed.

End Uuid.

(** ** File names and paths *)

Section Paths.

Lemma path_join_output_dir (name : string) :
  startswith_sep name = false ->
  path_join OUTPUT_DIR name = OUTPUT_DIR +:+ "/" +:+ name.
Proof. intros H. unfold path_join. now rewrite H. Qed.

Lemma make_filename_inj (u v : UUID) :
  make_filename u = make_filename v -> u = v.
Proof.
  unfold make_filename. intros E.
  apply String.app_inj in E. apply string_app_inj_r in E.
  now apply uuid_hex_inj.
Qed.

End Paths.

(** ** The handler, branch by branch *)

Section HandlerFacts.

Variable os_random : nat -> Byte.byte.
Variable model : pyval -> string -> filesystem -> filesystem * option exn.

(** Anything but a dictionary has no [get]. *)
Lemma synthesize_not_dict (data : pyval) (w : world) :
  (forall d, data <> PDict d) ->
  synthesize os_random model data w = (Raise (AttributeError data "get"), w).
Proof.
  intros H. destruct data; try reflexivity. now destruct (H d).
Qed.

(** The validation branch. *)
Lemma synthesize_reject (d : gmap string pyval) (w : world) :
  truthy (default (PStr "") (d !! "text")) = false ->
  synthesize os_random model (PDict d) w = (Return no_text_response, w).
Proof.
  intros H. unfold synthesize, mbind, M_bind, lift, py_get.
  now rewrite H.
Qed.

(** The synthesis branch. *)
Lemma synthesize_accept (d : gmap string pyval) (w : world) :
  let text := default (PStr "") (d !! "text") in
  truthy text = true ->
  synthesize os_random model (PDict d) w =
    (match snd (model text (next_filepath os_random w) (files w)) with
     | None =>
         Return (Body (jsonify {[ "audio_path" := PStr (next_filepath os_random w) ]}))
     | Some e => Raise e
     end,
     after_call os_random model text w).
Proof.
  intros text H. unfold after_call.
  unfold synthesize, mbind, M_bind, lift, py_get.
  fold text. rewrite H. cbn [negb].
  unfold uuid4, mbind, M_bind, urandom, mret, M_ret, tts_to_file.
  cbn [files rand_pos trace].
  fold (next_uuid os_random w). fold (next_filepath os_random w).
  destruct (model text (next_filepath os_random w) (files w)) as [fs' [e|]];
    cbn [fst snd]; rewrite <- app_assoc; reflexivity.
Qed.

Lemma synthesize_accept_text (d : gmap string pyval) (text : pyval) (w : world) :
  d !! "text" = Some text ->
  truthy text = true ->
  synthesize os_random model (PDict d) w =
    (match snd (model text (next_filepath os_random w) (files w)) with
     | None =>
         Return (Body (jsonify {[ "audio_path" := PStr (next_filepath os_random w) ]}))
     | Some e => Raise e
     end,
     after_call os_random model text w).
Proof.
  intros Hd Ht.
  assert (default (PStr "") (d !! "text") = text) as Hdef by now rewrite Hd.
  rewrite <- Hdef in Ht |- *. now apply synthesize_accept.
Qed.

(** Every run takes one of the three branches. *)
Lemma synthesize_cases (data : pyval) (w : world) :
  synthesize os_random model data w = (Raise (AttributeError data "get"), w)
  \/ synthesize os_random model data w = (Return no_text_response, w)
  \/ exists text,
       truthy text = true /\
       synthesize os_random model data w =
         (match snd (model text (next_filepath os_random w) (files w)) with
          | None =>
              Return (Body (jsonify
                {[ "audio_path" := PStr (next_filepath os_random w) ]}))
          | Some e => Raise e
          end,
          after_call os_random model text w).
Proof.
  destruct data as [| | | | | |d];
    try (left; apply synthesize_not_dict; discriminate).
  destruct (truthy (default (PStr "") (d !! "text"))) eqn:Ht.
  - right; right. eexists. split; [exact Ht|]. now apply synthesize_accept.
  - right; left. now apply synthesize_reject.
Qed.

Lemma truthy_str (s : string) : truthy (PStr s) = true <-> s <> "".
Proof. destruct s; cbn; split; congruence. Qed.

Lemma audio_path_payload_inj (p q : string) :
  jsonify {[ "audio_path" := PStr p ]} = jsonify {[ "audio_path" := PStr q ]} ->
  p = q.
Proof.
  intros E.
  apply (f_equal (fun v => match v with
                           | PDict m => m !! "audio_path"
                           | _ => None
                           end)) in E.
  unfold jsonify in E. rewrite !lookup_singleton_eq in E. congruence.
Qed.

(** ** The claims *)

(** C1: a request whose body carries a non-empty [text] string is answered
    with status 200 and the payload [{"audio_path": p}], where [p] is the
    very path handed to the model together with the text; assuming the
    model's call returns having written a file at the path it was given,
    that file exists in the world the response is returned in. *)
Theorem synthesize_success
    (d : gmap string pyval) (s : string) (w : world) (fs' : filesystem) :
  d !! "text" = Some (PStr s) ->
  s <> "" ->
  model (PStr s) (next_filepath os_random w) (files w) = (fs', None) ->
  file_exists fs' (next_filepath os_random w) = true ->
  exists (p : string) (w' : world),
    synthesize os_random model (PDict d) w =
      (Return (Body (jsonify {[ "audio_path" := PStr p ]})), w')
    /\ make_response (Body (jsonify {[ "audio_path" := PStr p ]})) =
         Response (jsonify {[ "audio_path" := PStr p ]}) 200
    /\ trace w' = trace w ++ [EUrandom 16; ETtsToFile (PStr s) p]
    /\ file_exists (files w') p = true.
Proof.
  intros Hd Hs Hm Hex.
  exists (next_filepath os_random w), (after_call os_random model (PStr s) w).
  rewrite (synthesize_accept_text d (PStr s) w Hd) by now apply truthy_str.
  unfold after_call. rewrite Hm. cbn [fst snd files trace].
  repeat split. exact Hex.
Qed.

(** C2: a JSON object without a [text] key, or with [text] bound to the
    empty string, is answered with exactly status 400 and the payload
    [{"error": "No text provided"}]. *)
Theorem synthesize_missing_or_empty_text (d : gmap string pyval) (w : world) :
  d !! "text" = None \/ d !! "text" = Some (PStr "") ->
  fst (synthesize os_random model (PDict d) w) =
    Return (BodyStatus (jsonify {[ "error" := PStr "No text provided" ]}) 400)
  /\ make_response
       (BodyStatus (jsonify {[ "error" := PStr "No text provided" ]}) 400) =
     Response (jsonify {[ "error" := PStr "No text provided" ]}) 400.
Proof.
  intros H. split; [|reflexivity].
  rewrite synthesize_reject; [reflexivity|].
  destruct H as [-> | ->]; reflexivity.
Qed.

(** C3, as amended: validation performs no trimming.  For a request whose
    [text] is a string [s], the handler rejects with the 400 validation
    error, without invoking the model, when [s] is the empty string
    itself ([String.eqb s ""]); any other string, whitespace-only ones
    included, is handed unchanged to the model. *)
Theorem synthesize_text_untrimmed
    (d : gmap string pyval) (s : string) (w : world) :
  d !! "text" = Some (PStr s) ->
  if String.eqb s "" then
    synthesize os_random model (PDict d) w = (Return no_text_response, w)
  else
    trace (snd (synthesize os_random model (PDict d) w)) =
      trace w ++ [EUrandom 16; ETtsToFile (PStr s) (next_filepath os_random w)]
    /\ fst (synthesize os_random model (PDict d) w) <> Return no_text_response.
Proof.
  intros Hd. destruct (String.eqb_spec s "") as [-> | Hs].
  - apply synthesize_reject. now rewrite Hd.
  - rewrite (synthesize_accept_text d (PStr s) w Hd) by now apply truthy_str.
    cbn [fst snd]. split; [reflexivity|].
    destruct (snd (model _ _ _)); discriminate.
Qed.

(** C4: when validation fails because [text] is missing or empty, the
    request has no side effect: the world after it is the world before
    it, so the model was not called, no random byte was drawn and the
    filesystem is unchanged. *)
Theorem validation_failure_no_effect (d : gmap string pyval) (w : world) :
  d !! "text" = None \/ d !! "text" = Some (PStr "") ->
  let w' := snd (synthesize os_random model (PDict d) w) in
  w' = w
  /\ trace w' = trace w
  /\ rand_pos w' = rand_pos w
  /\ files w' = files w.
Proof.
  intros H w'. subst w'.
  rewrite synthesize_reject; [now cbn|].
  destruct H as [-> | ->]; reflexivity.
Qed.

(** C5: whenever the handler answers with status 200, the payload is
    [{"audio_path": p}] with [p] the output directory joined with
    ["tts_" ++ t ++ ".wav"], where [t] consists of 32 lower-case
    hexadecimal characters, and [p] is absolute. *)
Theorem audio_path_shape (data : pyval) (w : world) (v : view_return) :
  fst (synthesize os_random model data w) = Return v ->
  status (make_response v) = 200%Z ->
  exists (t p : string),
    v = Body (jsonify {[ "audio_path" := PStr p ]})
    /\ p = path_join OUTPUT_DIR ("tts_" +:+ t +:+ ".wav")
    /\ p = OUTPUT_DIR +:+ "/" +:+ "tts_" +:+ t +:+ ".wav"
    /\ String.length t = 32%nat
    /\ all_lower_hex t = true
    /\ isabs p = true.
Proof.
  intros Hr Hst.
  destruct (synthesize_cases data w) as [E | [E | (text & Ht & E)]];
    rewrite E in Hr; cbn [fst] in Hr.
  - discriminate.
  - injection Hr as <-. discriminate.
  - destruct (snd (model text _ _)); [discriminate|].
    injection Hr as <-.
    exists (uuid_hex (next_uuid os_random w)), (next_filepath os_random w).
    split; [reflexivity|]. split; [reflexivity|].
    split; [apply path_join_output_dir; reflexivity|].
    split; [|split].
    + apply length_format_032x, uuid_int_lt.
      now rewrite length_map, length_seq.
    + apply all_lower_hex_format_032x.
    + reflexivity.
Qed.

(** C6: the path is injective in the token.  If two requests, whatever
    their texts, are answered with audio paths [p1] and [p2] and the
    UUIDs they drew differ, then their hexadecimal tokens differ and
    [p1] differs from [p2]. *)
Theorem distinct_tokens_distinct_paths
    (data1 data2 : pyval) (w1 w2 : world) (p1 p2 : string) :
  fst (synthesize os_random model data1 w1) =
    Return (Body (jsonify {[ "audio_path" := PStr p1 ]})) ->
  fst (synthesize os_random model data2 w2) =
    Return (Body (jsonify {[ "audio_path" := PStr p2 ]})) ->
  next_uuid os_random w1 <> next_uuid os_random w2 ->
  uuid_hex (next_uuid os_random w1) <> uuid_hex (next_uuid os_random w2)
  /\ p1 = path_join OUTPUT_DIR (make_filename (next_uuid os_random w1))
  /\ p2 = path_join OUTPUT_DIR (make_filename (next_uuid os_random w2))
  /\ p1 <> p2.
Proof.
  intros H1 H2 Hne.
  assert (forall data w p,
            fst (synthesize os_random model data w) =
              Return (Body (jsonify {[ "audio_path" := PStr p ]})) ->
            p = next_filepath os_random w) as Hpath.
  { intros data w p Hr.
    destruct (synthesize_cases data w) as [E | [E | (text & Ht & E)]];
      rewrite E in Hr; cbn [fst] in Hr; try discriminate.
    destruct (snd (model text _ _)); [discriminate|].
    symmetry. apply audio_path_payload_inj. congruence. }
  apply Hpath in H1, H2. subst p1 p2.
  split; [intros E; apply Hne; now apply uuid_hex_inj|].
  split; [reflexivity|]. split; [reflexivity|].
  unfold next_filepath.
  rewrite !path_join_output_dir by reflexivity.
  intros E. apply String.app_inj in E. apply String.app_inj in E.
  apply Hne. now apply make_filename_inj.
Qed.

(** C7: nothing wraps the model's call.  For a request with a non-empty
    [text], if the model raises [e], the handler raises [e] (it returns
    no response at all), and the world it leaves behind is the one the
    model left: the files are as the failed call wrote them and no
    further request follows the call. *)
Theorem synthesis_failure_propagates
    (d : gmap string pyval) (text : pyval) (w : world)
    (fs' : filesystem) (e : exn) :
  d !! "text" = Some text ->
  truthy text = true ->
  model text (next_filepath os_random w) (files w) = (fs', Some e) ->
  synthesize os_random model (PDict d) w =
    (Raise e,
     World fs' (rand_pos w + 16)
           (trace w ++ [EUrandom 16; ETtsToFile text (next_filepath os_random w)]))
  /\ (forall v, fst (synthesize os_random model (PDict d) w) <> Return v).
Proof.
  intros Hd Ht Hm.
  rewrite (synthesize_accept_text d text w Hd Ht).
  unfold after_call. rewrite Hm. cbn [fst snd].
  split; [reflexivity | discriminate].
Qed.

(** C9: when the body parses to JSON [null], [request.json] is [None] and
    looking up [text] raises [AttributeError]; the handler does not
    return the 400 validation response. *)
Theorem null_body_raises (w : world) :
  synthesize os_random model PNone w =
    (Raise (Exn "AttributeError" "'NoneType' object has no attribute 'get'"), w)
  /\ fst (synthesize os_random model PNone w) <> Return no_text_response.
Proof. split; [reflexivity | discriminate]. Qed.

(** C10: validation looks at truthiness only.  For a JSON object whose
    [text] is [v], of whatever type: if [v] is truthy the request passes
    validation and [v] itself is handed to the model; if [v] is falsy the
    answer is the 400 validation response.  The empty string, [0],
    [False], [None] and the empty list are falsy; an integer is truthy
    exactly when it is not zero, and every non-empty list is truthy. *)
Theorem validation_by_truthiness
    (d : gmap string pyval) (v : pyval) (w : world) :
  d !! "text" = Some v ->
  (if truthy v then
     fst (synthesize os_random model (PDict d) w) <> Return no_text_response
     /\ trace (snd (synthesize os_random model (PDict d) w)) =
          trace w ++ [EUrandom 16; ETtsToFile v (next_filepath os_random w)]
   else
     synthesize os_random model (PDict d) w = (Return no_text_response, w))
  /\ (truthy (PStr "") = false /\ truthy (PInt 0) = false
      /\ truthy (PBool false) = false /\ truthy PNone = false
      /\ truthy (PList []) = false)
  /\ (forall z, truthy (PInt z) = negb (Z.eqb z 0))
  /\ (forall x l, truthy (PList (x :: l)) = true).
Proof.
  intros Hd. split; [|split; [|split]].
  - destruct (truthy v) eqn:Ht.
    + rewrite (synthesize_accept_text d v w Hd Ht).
      cbn [fst snd]. split; [|reflexivity].
      destruct (snd (model _ _ _)); discriminate.
    + apply synthesize_reject. now rewrite Hd.
  - repeat split.
  - reflexivity.
  - reflexivity.
Qed.

End HandlerFacts.

(** ** The claims on concrete requests *)

Lemma synthesize_success_witness :
  exists (p : string) (w' : world),
    synthesize sample_random model_ok (PDict hello) empty_world =
      (Return (Body (jsonify {[ "audio_path" := PStr p ]})), w')
    /\ make_response (Body (jsonify {[ "audio_path" := PStr p ]})) =
         Response (jsonify {[ "audio_path" := PStr p ]}) 200
    /\ trace w' = trace empty_world ++ [EUrandom 16; ETtsToFile (PStr "hello world") p]
    /\ file_exists (files w') p = true.
Proof.
  apply (synthesize_success sample_random model_ok hello "hello world"
           empty_world {[ sample_path := riff ]}).
  - reflexivity.
  - discriminate.
  - vm_compute. reflexivity.
  - vm_compute. reflexivity.
Defined.

Lemma synthesize_missing_or_empty_text_witness :
  fst (synthesize sample_random model_ok (PDict {[ "text" := PStr "" ]}) empty_world) =
    Return (BodyStatus (jsonify {[ "error" := PStr "No text provided" ]}) 400)
  /\ make_response
       (BodyStatus (jsonify {[ "error" := PStr "No text provided" ]}) 400) =
     Response (jsonify {[ "error" := PStr "No text provided" ]}) 400.
Proof.
  apply (synthesize_missing_or_empty_text sample_random model_ok
           {[ "text" := PStr "" ]} empty_world).
  right. reflexivity.
Defined.

(** C3 as written fails: [" "] is empty after trimming, yet the request
    is answered with status 200 and the model is called with [" "]. *)
Lemma whitespace_text_counterexample :
  spec_trim " " = ""
  /\ synthesize sample_random model_ok (PDict {[ "text" := PStr " " ]}) empty_world =
       (Return (Body (jsonify {[ "audio_path" := PStr sample_path ]})),
        World {[ sample_path := riff ]} 16
              [EUrandom 16; ETtsToFile (PStr " ") sample_path])
  /\ fst (synthesize sample_random model_ok (PDict {[ "text" := PStr " " ]}) empty_world)
       <> Return no_text_response.
Proof.
  split; [reflexivity|]. split.
  - vm_compute. reflexivity.
  - vm_compute. discriminate.
Qed.

Lemma synthesize_text_untrimmed_witness :
  trace (snd (synthesize sample_random model_ok
                (PDict {[ "text" := PStr " " ]}) empty_world)) =
    trace empty_world ++
      [EUrandom 16; ETtsToFile (PStr " ") (next_filepath sample_random empty_world)]
  /\ fst (synthesize sample_random model_ok
            (PDict {[ "text" := PStr " " ]}) empty_world)
       <> Return no_text_response.
Proof.
  exact (synthesize_text_untrimmed sample_random model_ok
           {[ "text" := PStr " " ]} " " empty_world eq_refl).
Defined.

Lemma validation_failure_no_effect_witness :
  let w' := snd (synthesize sample_random model_ok (PDict ∅) empty_world) in
  w' = empty_world
  /\ trace w' = trace empty_world
  /\ rand_pos w' = rand_pos empty_world
  /\ files w' = files empty_world.
Proof.
  apply (validation_failure_no_effect sample_random model_ok ∅ empty_world).
  left. reflexivity.
Defined.

Lemma audio_path_shape_witness :
  exists (t p : string),
    Body (jsonify {[ "audio_path" := PStr sample_path ]}) =
      Body (jsonify {[ "audio_path" := PStr p ]})
    /\ p = path_join OUTPUT_DIR ("tts_" +:+ t +:+ ".wav")
    /\ p = OUTPUT_DIR +:+ "/" +:+ "tts_" +:+ t +:+ ".wav"
    /\ String.length t = 32%nat
    /\ all_lower_hex t = true
    /\ isabs p = true.
Proof.
  apply (audio_path_shape sample_random model_ok (PDict hello) empty_world).
  - vm_compute. reflexivity.
  - reflexivity.
Defined.

(** The same text sent twice: the second request starts where the first
    one left the world. *)
Lemma distinct_tokens_distinct_paths_witness :
  let w1 := snd (synthesize sample_random model_ok (PDict hello) empty_world) in
  uuid_hex (next_uuid sample_random empty_world) <> uuid_hex (next_uuid sample_random w1)
  /\ sample_path =
       path_join OUTPUT_DIR (make_filename (next_uuid sample_random empty_world))
  /\ sample_path_next =
       path_join OUTPUT_DIR (make_filename (next_uuid sample_random w1))
  /\ sample_path <> sample_path_next.
Proof.
  apply (distinct_tokens_distinct_paths sample_random model_ok
           (PDict hello) (PDict hello)).
  - vm_compute. reflexivity.
  - vm_compute. reflexivity.
  - vm_compute. discriminate.
Defined.

Lemma synthesis_failure_propagates_witness :
  synthesize sample_random model_fail (PDict hello) empty_world =
    (Raise (Exn "RuntimeError" "synthesis failed"),
     World {[ sample_path := [] ]} (rand_pos empty_world + 16)
           (trace empty_world ++
              [EUrandom 16;
               ETtsToFile (PStr "hello world") (next_filepath sample_random empty_world)]))
  /\ (forall v,
        fst (synthesize sample_random model_fail (PDict hello) empty_world) <> Return v).
Proof.
  apply (synthesis_failure_propagates sample_random model_fail hello
           (PStr "hello world") empty_world).
  - reflexivity.
  - reflexivity.
  - vm_compute. reflexivity.
Defined.

Lemma validation_by_truthiness_witness :
  (fst (synthesize sample_random model_ok (PDict {[ "text" := PInt 7 ]}) empty_world)
     <> Return no_text_response
   /\ trace (snd (synthesize sample_random model_ok
                    (PDict {[ "text" := PInt 7 ]}) empty_world)) =
        trace empty_world ++
          [EUrandom 16; ETtsToFile (PInt 7) (next_filepath sample_random empty_world)])
  /\ (truthy (PStr "") = false /\ truthy (PInt 0) = false
      /\ truthy (PBool false) = false /\ truthy PNone = false
      /\ truthy (PList []) = false)
  /\ (forall z, truthy (PInt z) = negb (Z.eqb z 0))
  /\ (forall x l, truthy (PList (x :: l)) = true).
Proof.
  exact (validation_by_truthiness sample_random model_ok
           {[ "text" := PInt 7 ]} (PInt 7) empty_world eq_refl).
Defined.

(** ** Outcomes of the handler, characterised *)

Section Outcomes.

Variable os_random : nat -> Byte.byte.
Variable model : pyval -> string -> filesystem -> filesystem * option exn.

Lemma request_text_dict (d : gmap string pyval) :
  request_text (PDict d) =
    if truthy (default (PStr "") (d !! "text"))
    then Some (default (PStr "") (d !! "text")) else None.
Proof. reflexivity. Qed.

Lemma request_text_truthy (data text : pyval) :
  request_text data = Some text -> truthy text = true.
Proof.
  destruct data; try discriminate. rewrite request_text_dict.
  destruct (truthy _) eqn:Ht; [|discriminate]. now intros [= <-].
Qed.

(** The handler in one equation, by what reaches the model. *)
Lemma synthesize_unfold (data : pyval) (w : world) :
  synthesize os_random model data w =
    match data with
    | PDict _ =>
        match request_text data with
        | Some text =>
            (match snd (model text (next_filepath os_random w) (files w)) with
             | None =>
                 Return (Body (jsonify
                   {[ "audio_path" := PStr (next_filepath os_random w) ]}))
             | Some e => Raise e
             end,
             after_call os_random model text w)
        | None => (Return no_text_response, w)
        end
    | _ => (Raise (AttributeError data "get"), w)
    end.
Proof.
  destruct data as [| | | | | |d]; try reflexivity.
  rewrite request_text_dict.
  destruct (truthy (default (PStr "") (d !! "text"))) eqn:Ht.
  - now apply synthesize_accept.
  - now apply synthesize_reject.
Qed.

(** X1: a body that is not a JSON object (null, a boolean, a number, a
    string or an array) makes the handler raise [AttributeError], with a
    message naming the body's type, before anything is asked of the
    environment: the world is unchanged. *)
Theorem non_object_body_raises (data : pyval) (w : world) :
  (forall d, data <> PDict d) ->
  synthesize os_random model data w =
    (Raise (Exn "AttributeError"
              ("'" +:+ type_name data +:+ "' object has no attribute 'get'")), w)
  /\ type_name data <> "dict".
Proof.
  intros H. rewrite synthesize_unfold.
  destruct data as [| | | | | |d]; try (split; [reflexivity | discriminate]).
  now destruct (H d).
Qed.

(** X2: the 400 validation response is returned exactly for the JSON
    objects whose [text] is absent or falsy, and never otherwise. *)
Theorem bad_request_iff (data : pyval) (w : world) :
  fst (synthesize os_random model data w) = Return no_text_response
  <-> exists d, data = PDict d /\ truthy (default (PStr "") (d !! "text")) = false.
Proof.
  rewrite synthesize_unfold. split.
  - destruct data as [| | | | | |d]; try discriminate.
    rewrite request_text_dict.
    destruct (truthy _) eqn:Ht.
    + cbn [fst]. destruct (snd (model _ _ _)); discriminate.
    + intros _. now exists d.
  - intros (d & -> & Ht). rewrite request_text_dict, Ht. reflexivity.
Qed.

(** X3: the handler answers with status 200 exactly when the body is a
    JSON object with a truthy [text] and the model's call on that text
    and the freshly built path returns without raising. *)
Theorem ok_response_iff (data : pyval) (w : world) :
  (exists v, fst (synthesize os_random model data w) = Return v
             /\ status (make_response v) = 200%Z)
  <-> exists text,
        request_text data = Some text
        /\ snd (model text (next_filepath os_random w) (files w)) = None.
Proof.
  rewrite synthesize_unfold. split.
  - intros (v & Hr & Hst).
    destruct data as [| | | | | |d]; try discriminate.
    destruct (request_text (PDict d)) as [text|] eqn:Hrt.
    + exists text. split; [reflexivity|].
      cbn [fst] in Hr. destruct (snd (model _ _ _)); [discriminate | reflexivity].
    + cbn [fst] in Hr. injection Hr as <-. discriminate.
  - intros (text & Hrt & Hm).
    destruct data as [| | | | | |d]; try discriminate.
    rewrite Hrt, Hm. eexists. split; reflexivity.
Qed.

(** X4: for a JSON object the handler raises nothing of its own.  If it
    raises [e], then validation had passed and [e] is the exception the
    model raised on the text and the path of this request. *)
Theorem object_body_exception_is_models
    (d : gmap string pyval) (w : world) (e : exn) :
  fst (synthesize os_random model (PDict d) w) = Raise e ->
  exists text,
    d !! "text" = Some text
    /\ truthy text = true
    /\ snd (model text (next_filepath os_random w) (files w)) = Some e.
Proof.
  rewrite synthesize_unfold, request_text_dict.
  destruct (truthy (default (PStr "") (d !! "text"))) eqn:Ht; [|discriminate].
  cbn [fst]. destruct (d !! "text") as [text|] eqn:Hd; [|discriminate Ht].
  cbn [default from_option] in *.
  destruct (snd (model _ _ _)) as [e'|] eqn:Hm; [|discriminate].
  intros [= <-]. now exists text.
Qed.

End Outcomes.

(** ** Where files go *)

Section Destinations.

Lemma has_sep_app (s t : string) : has_sep (s +:+ t) = has_sep s || has_sep t.
Proof.
  induction s as [|c s IH]; [reflexivity|].
  rewrite string_app_cons. cbn [has_sep]. now rewrite IH, orb_assoc.
Qed.

Lemma lower_hex_not_sep (c : ascii) : is_lower_hex c = true -> Ascii.eqb c "/" = false.
Proof.
  destruct (Ascii.eqb_spec c "/") as [-> | _]; [discriminate | reflexivity].
Qed.

Lemma all_lower_hex_no_sep (s : string) : all_lower_hex s = true -> has_sep s = false.
Proof.
  induction s as [|c s IH]; [reflexivity|].
  cbn [all_lower_hex has_sep]. intros [Hc Hs]%andb_prop.
  now rewrite (lower_hex_not_sep c Hc), (IH Hs).
Qed.

Lemma make_filename_no_sep (u : UUID) : has_sep (make_filename u) = false.
Proof.
  unfold make_filename. rewrite !has_sep_app.
  unfold uuid_hex.
  now rewrite (all_lower_hex_no_sep _ (all_lower_hex_format_032x (uuid_int u))).
Qed.

Lemma prefix_app (s t : string) : String.prefix s (s +:+ t) = true.
Proof.
  induction s as [|c s IH]; [now destruct t|].
  rewrite string_app_cons. cbn [String.prefix].
  destruct (ascii_dec c c); [exact IH | contradiction].
Qed.

Lemma prefix_eq (s p q : string) :
  String.prefix s p = true -> String.prefix s q = false -> q <> p.
Proof. intros Hp Hq ->. congruence. Qed.

End Destinations.

Section Runs.

Variable os_random : nat -> Byte.byte.
Variable model : pyval -> string -> filesystem -> filesystem * option exn.

Lemma tts_calls_app (l1 l2 : list effect) :
  tts_calls (l1 ++ l2) = tts_calls l1 ++ tts_calls l2.
Proof. apply omap_app. Qed.

Lemma next_filepath_path_at (w : world) :
  next_filepath os_random w = path_at os_random (rand_pos w).
Proof. reflexivity. Qed.

Lemma path_at_child (r : nat) :
  path_at os_random r =
    (OUTPUT_DIR +:+ "/tts_") +:+
      uuid_hex (UUID_of_bytes (map os_random (seq r 16))) +:+ ".wav".
Proof.
  unfold path_at. rewrite path_join_output_dir by reflexivity.
  unfold make_filename. now rewrite !string_app_assoc.
Qed.

(** The world one request leaves behind. *)
Lemma synthesize_world (data : pyval) (w : world) :
  snd (synthesize os_random model data w) =
    match request_text data with
    | Some text => after_call os_random model text w
    | None => w
    end.
Proof.
  rewrite synthesize_unfold.
  destruct data as [| | | | | |d]; try reflexivity.
  destruct (request_text (PDict d)); reflexivity.
Qed.

Lemma handle_all_cons (data : pyval) (rest : list pyval) (w : world) :
  handle_all os_random model (data :: rest) w =
    (fst (synthesize os_random model data w)
       :: fst (handle_all os_random model rest
                 (snd (synthesize os_random model data w))),
     snd (handle_all os_random model rest
            (snd (synthesize os_random model data w)))).
Proof.
  cbn [handle_all].
  destruct (synthesize os_random model data w) as [o w1].
  cbn [fst snd].
  destruct (handle_all os_random model rest w1) as [os w2]. reflexivity.
Qed.

(** X5: the destination of the model's call never depends on the
    request.  Whatever text passes validation, the path handed to the
    model is the output directory, a separator and a file name that
    contains no separator and is built from the random token alone, so
    the file is a direct child of the output directory. *)
Theorem destination_is_child_of_output_dir
    (data text : pyval) (w : world) :
  request_text data = Some text ->
  exists name,
    tts_calls (trace (snd (synthesize os_random model data w))) =
      tts_calls (trace w) ++ [(text, OUTPUT_DIR +:+ "/" +:+ name)]
    /\ has_sep name = false
    /\ name = make_filename (next_uuid os_random w).
Proof.
  intros Hrt. exists (make_filename (next_uuid os_random w)).
  split; [|split; [apply make_filename_no_sep | reflexivity]].
  rewrite synthesize_world, Hrt. unfold after_call. cbn [trace].
  rewrite tts_calls_app. f_equal.
Qed.

(** X6: entropy accounting.  Handling a list of requests one after the
    other yields one outcome per request and draws exactly 16 random
    bytes for each request that passes validation, whether or not the
    model then raises, and none for the others. *)
Theorem handle_all_entropy (reqs : list pyval) (w : world) :
  List.length (fst (handle_all os_random model reqs w)) = List.length reqs
  /\ rand_pos (snd (handle_all os_random model reqs w)) =
       (rand_pos w + 16 * List.length (omap request_text reqs))%nat.
Proof.
  revert w. induction reqs as [|data rest IH]; intros w.
  - cbn. split; [reflexivity | lia].
  - rewrite handle_all_cons. cbn [fst snd List.length].
    destruct (IH (snd (synthesize os_random model data w))) as [IHl IHr].
    split; [now rewrite IHl|].
    rewrite IHr, synthesize_world. cbn [omap list_omap].
    destruct (request_text data) as [text|]; cbn [rand_pos after_call List.length]; lia.
Qed.

(** X7: the model sees exactly the requests that pass validation, in
    order, each with its text unchanged and with the path built from its
    own window of 16 random bytes: the [i]-th such request uses the
    bytes from position [rand_pos w + 16 * i]. *)
Theorem handle_all_calls (reqs : list pyval) (w : world) :
  tts_calls (trace (snd (handle_all os_random model reqs w))) =
    tts_calls (trace w) ++
      imap (fun i text => (text, path_at os_random (rand_pos w + 16 * i)))
           (omap request_text reqs).
Proof.
  revert w. induction reqs as [|data rest IH]; intros w.
  - cbn. now rewrite app_nil_r.
  - rewrite handle_all_cons. cbn [snd]. rewrite IH, synthesize_world.
    cbn [omap list_omap].
    destruct (request_text data) as [text|].
    + cbn [after_call trace rand_pos]. rewrite tts_calls_app. cbn [imap].
      rewrite <- app_assoc. f_equal. cbn [tts_calls omap list_omap app].
      rewrite Nat.mul_0_r, Nat.add_0_r. f_equal.
      apply imap_ext. intros i x _. cbn. do 2 f_equal. lia.
    + reflexivity.
Qed.

(** X8: if the model only ever touches its destination path, then no
    run of requests changes, creates or removes a file whose path does
    not start with the output directory followed by ["/tts_"]. *)
Theorem handle_all_frame (reqs : list pyval) (w : world) (q : string) :
  writes_only_destination model ->
  String.prefix (OUTPUT_DIR +:+ "/tts_") q = false ->
  files (snd (handle_all os_random model reqs w)) !! q = files w !! q.
Proof.
  intros Hm Hq. revert w. induction reqs as [|data rest IH]; intros w.
  - reflexivity.
  - rewrite handle_all_cons. cbn [snd]. rewrite IH, synthesize_world.
    destruct (request_text data) as [text|]; [|reflexivity].
    cbn [after_call files]. apply Hm.
    apply (prefix_eq (OUTPUT_DIR +:+ "/tts_")); [|exact Hq].
    rewrite next_filepath_path_at, path_at_child. apply prefix_app.
Qed.

End Runs.

(** ** Reading single characters of a token *)

Section TokenDigits.

Lemma lower_hex_char_spec (c : ascii) :
  is_lower_hex c = true -> hex_value c < 16 /\ hex_digit (hex_value c) = c.
Proof.
  destruct c as [[] [] [] [] [] [] [] []]; intros H; vm_compute in H;
    try discriminate H; split; reflexivity.
Qed.

(** Among lower-case hexadecimal strings of one length, the number read
    determines the string. *)
Lemma parse_hex_from_inj (s : string) : forall (t : string) (a b : N),
  all_lower_hex s = true -> all_lower_hex t = true ->
  String.length s = String.length t ->
  parse_hex_from a s = parse_hex_from b t ->
  a = b /\ s = t.
Proof.
  induction s as [|c s IH]; intros [|d t] a b Hs Ht Hlen E;
    try discriminate Hlen.
  - now split.
  - cbn [all_lower_hex] in Hs, Ht.
    apply andb_prop in Hs as [Hc Hs]. apply andb_prop in Ht as [Hd Ht].
    cbn [parse_hex_from] in E. injection Hlen as Hlen.
    destruct (IH t _ _ Hs Ht Hlen E) as [Hacc ->].
    destruct (lower_hex_char_spec c Hc) as [Hc16 Hcd].
    destruct (lower_hex_char_spec d Hd) as [Hd16 Hdd].
    assert (hex_value c = hex_value d) as Hv by lia.
    split; [lia|]. f_equal. now rewrite <- Hcd, <- Hdd, Hv.
Qed.

Lemma fixed_hex_nibble (n k : N) :
  N.land (N.shiftr n (4 * k)) 15 = (n / 16 ^ k) mod 16.
Proof.
  change 15 with (N.ones 4). rewrite N.land_ones, N.shiftr_div_pow2.
  now rewrite N.pow_mul_r.
Qed.

Lemma length_fixed_hex (k : nat) (n : N) : String.length (fixed_hex k n) = k.
Proof. induction k as [|k IH]; cbn; [reflexivity | now rewrite IH]. Qed.

Lemma all_lower_hex_fixed_hex (k : nat) (n : N) :
  all_lower_hex (fixed_hex k n) = true.
Proof.
  induction k as [|k IH]; [reflexivity|].
  cbn [fixed_hex all_lower_hex]. rewrite IH.
  destruct (hex_digit_spec _ (nibble_lt (N.shiftr n (4 * N.of_nat k)))) as [-> _].
  reflexivity.
Qed.

Lemma parse_hex_from_fixed_hex (k : nat) (n : N) : forall a,
  parse_hex_from a (fixed_hex k n) =
    a * 16 ^ N.of_nat k + n mod 16 ^ N.of_nat k.
Proof.
  induction k as [|k IH]; intros a.
  - cbn. rewrite N.mod_1_r. lia.
  - cbn [fixed_hex parse_hex_from]. rewrite IH.
    destruct (hex_digit_spec _ (nibble_lt (N.shiftr n (4 * N.of_nat k)))) as [_ ->].
    rewrite fixed_hex_nibble, Nat2N.inj_succ, N.pow_succ_r'.
    rewrite (N.mul_comm 16 (16 ^ N.of_nat k)), N.Div0.mod_mul_r. lia.
Qed.

(** Printing a 128-bit value with ['%032x'] lays out its 32 nibbles,
    most significant first. *)
Lemma format_032x_fixed (n : N) : n < 2 ^ 128 -> format_032x n = fixed_hex 32 n.
Proof.
  intros Hn.
  apply (parse_hex_from_inj (format_032x n) (fixed_hex 32 n) 0 0).
  - apply all_lower_hex_format_032x.
  - apply all_lower_hex_fixed_hex.
  - now rewrite length_format_032x, length_fixed_hex.
  - fold (parse_hex (format_032x n)). rewrite parse_hex_format_032x.
    rewrite parse_hex_from_fixed_hex.
    change (16 ^ N.of_nat 32) with (2 ^ 128).
    rewrite N.mod_small by exact Hn. lia.
Qed.

(** Bits 76 to 79 of a version-4 UUID spell the number 4. *)
Lemma set_version_nibble (x : N) :
  N.land (N.shiftr (set_version 4 x) 76) 15 = 4.
Proof.
  apply N.bits_inj. intros i.
  rewrite N.land_spec, N.shiftr_spec'.
  destruct (N.lt_ge_cases i 4) as [Hi | Hi].
  - unfold set_version. rewrite N.lor_spec, N.ldiff_spec.
    assert (i = 0 \/ i = 1 \/ i = 2 \/ i = 3) as [-> | [-> | [-> | ->]]] by lia;
      cbn [N.add Pos.add];
      match goal with
      | |- context [N.testbit (N.shiftl 0xf000 64) ?j] =>
          change (N.testbit (N.shiftl 0xf000 64) j) with true
      end;
      rewrite andb_false_r; reflexivity.
  - replace (N.testbit 15 i) with false; [rewrite andb_false_r|].
    + symmetry. apply (N.bits_above_log2 4 i). cbn. lia.
    + symmetry. apply (N.bits_above_log2 15 i). cbn. lia.
Qed.

(** Bit 63 of a version-4 UUID is set and bit 62 is clear. *)
Lemma set_version_variant_bits (x : N) :
  N.testbit (set_version 4 x) 63 = true /\ N.testbit (set_version 4 x) 62 = false.
Proof.
  unfold set_version. split.
  - rewrite N.lor_spec, N.ldiff_spec, N.lor_spec.
    change (N.testbit (N.shiftl 0x8000 48) 63) with true.
    change (N.testbit (N.shiftl 0xf000 64) 63) with false.
    now rewrite orb_true_r.
  - rewrite N.lor_spec, N.ldiff_spec, N.lor_spec, N.ldiff_spec.
    change (N.testbit (N.shiftl 0xc000 48) 62) with true.
    change (N.testbit (N.shiftl 0x8000 48) 62) with false.
    change (N.testbit (N.shiftl 4 76) 62) with false.
    now rewrite andb_false_r.
Qed.

Lemma variant_nibble_chars (v : N) :
  v < 16 -> N.testbit v 3 = true -> N.testbit v 2 = false ->
  hex_digit v = "8"%char \/ hex_digit v = "9"%char
  \/ hex_digit v = "a"%char \/ hex_digit v = "b"%char.
Proof.
  intros Hv H3 H2.
  destruct v as [|p]; [discriminate H3|].
  do 4 (destruct p as [p|p|]; try discriminate H3; try discriminate H2;
        try (vm_compute; tauto)); lia.
Qed.

End TokenDigits.

Section TokenShape.

Variable os_random : nat -> Byte.byte.

(** X9: every token the handler builds is a version-4, RFC 4122 UUID in
    hexadecimal: its 13th character is always [4] and its 17th is one of
    [8], [9], [a], [b], whatever the random bytes; only the other 30
    characters vary. *)
Theorem token_version_and_variant (w : world) :
  String.get 12 (uuid_hex (next_uuid os_random w)) = Some "4"%char
  /\ exists c,
       String.get 16 (uuid_hex (next_uuid os_random w)) = Some c
       /\ (c = "8" \/ c = "9" \/ c = "a" \/ c = "b")%char.
Proof.
  assert (uuid_int (next_uuid os_random w) < 2 ^ 128) as Hlt.
  { apply uuid_int_lt. now rewrite length_map, length_seq. }
  unfold uuid_hex. rewrite (format_032x_fixed _ Hlt).
  set (n := uuid_int (next_uuid os_random w)) in *.
  assert (n = set_version 4 (int_from_bytes (map os_random (seq (rand_pos w) 16))))
    as Hn by reflexivity.
  split.
  - change (String.get 12 (fixed_hex 32 n))
      with (Some (hex_digit (N.land (N.shiftr n 76) 15))).
    now rewrite Hn, set_version_nibble.
  - exists (hex_digit (N.land (N.shiftr n 60) 15)). split; [reflexivity|].
    apply variant_nibble_chars.
    + apply nibble_lt.
    + rewrite N.land_spec, N.shiftr_spec'. change (3 + 60) with 63.
      rewrite Hn. now destruct (set_version_variant_bits
        (int_from_bytes (map os_random (seq (rand_pos w) 16)))) as [-> _].
    + rewrite N.land_spec, N.shiftr_spec'. change (2 + 60) with 62.
      rewrite Hn. now destruct (set_version_variant_bits
        (int_from_bytes (map os_random (seq (rand_pos w) 16)))) as [_ ->].
Qed.

End TokenShape.

(** ** Earlier files are left alone *)

Section AppendOnly.

Variable os_random : nat -> Byte.byte.
Variable model : pyval -> string -> filesystem -> filesystem * option exn.

(** X10: the output directory is append-only.  If the model only ever
    touches its destination path, a run of requests leaves every path
    alone that is not the destination of one of its own calls; so a file
    written for an earlier request is never rewritten or removed unless a
    later token repeats its name. *)
Theorem handle_all_append_only (reqs : list pyval) (w : world) (q : string) :
  writes_only_destination model ->
  (forall i : nat,
     (i < List.length (omap request_text reqs))%nat ->
     q <> path_at os_random (rand_pos w + 16 * i)) ->
  files (snd (handle_all os_random model reqs w)) !! q = files w !! q.
Proof.
  intros Hm. revert w. induction reqs as [|data rest IH]; intros w Hq.
  - reflexivity.
  - rewrite handle_all_cons. cbn [snd].
    cbn [omap list_omap] in Hq. rewrite synthesize_world.
    destruct (request_text data) as [text|].
    + rewrite IH.
      * cbn [after_call files]. apply Hm.
        rewrite next_filepath_path_at.
        replace (rand_pos w) with (rand_pos w + 16 * 0)%nat by lia.
        apply Hq. cbn [List.length]. lia.
      * intros i Hi. cbn [after_call rand_pos].
        replace (rand_pos w + 16 + 16 * i)%nat
          with (rand_pos w + 16 * S i)%nat by lia.
        apply Hq. cbn [List.length]. lia.
    + now apply IH.
Qed.

End AppendOnly.

(** ** The further properties on concrete requests *)

Lemma model_ok_writes_only_destination : writes_only_destination model_ok.
Proof.
  intros text path fs q Hq. unfold model_ok. cbn [fst].
  apply lookup_insert_ne. congruence.
Qed.

Lemma non_object_body_raises_witness :
  synthesize sample_random model_ok (PList [PStr "hello"]) empty_world =
    (Raise (Exn "AttributeError"
              ("'" +:+ type_name (PList [PStr "hello"])
                   +:+ "' object has no attribute 'get'")), empty_world)
  /\ type_name (PList [PStr "hello"]) <> "dict".
Proof.
  apply (non_object_body_raises sample_random model_ok
           (PList [PStr "hello"]) empty_world).
  intros d. discriminate.
Defined.

Lemma bad_request_iff_witness :
  fst (synthesize sample_random model_ok (PDict {[ "text" := PInt 0 ]}) empty_world)
    = Return no_text_response.
Proof.
  apply (proj2 (bad_request_iff sample_random model_ok
                  (PDict {[ "text" := PInt 0 ]}) empty_world)).
  exists {[ "text" := PInt 0 ]}. split; reflexivity.
Defined.

Lemma ok_response_iff_witness :
  exists v,
    fst (synthesize sample_random model_ok (PDict hello) empty_world) = Return v
    /\ status (make_response v) = 200%Z.
Proof.
  apply (proj2 (ok_response_iff sample_random model_ok (PDict hello) empty_world)).
  exists (PStr "hello world"). split; reflexivity.
Defined.

Lemma object_body_exception_is_models_witness :
  exists text,
    hello !! "text" = Some text
    /\ truthy text = true
    /\ snd (model_fail text (next_filepath sample_random empty_world)
              (files empty_world)) =
         Some (Exn "RuntimeError" "synthesis failed").
Proof.
  apply (object_body_exception_is_models sample_random model_fail hello empty_world).
  vm_compute. reflexivity.
Defined.

Lemma destination_is_child_of_output_dir_witness :
  exists name,
    tts_calls (trace (snd (synthesize sample_random model_ok
                             (PDict {[ "text" := PStr "../../etc/passwd" ]})
                             empty_world))) =
      tts_calls (trace empty_world) ++
        [(PStr "../../etc/passwd", OUTPUT_DIR +:+ "/" +:+ name)]
    /\ has_sep name = false
    /\ name = make_filename (next_uuid sample_random empty_world).
Proof.
  apply (destination_is_child_of_output_dir sample_random model_ok
           (PDict {[ "text" := PStr "../../etc/passwd" ]})).
  reflexivity.
Defined.

Lemma handle_all_frame_witness :
  files (snd (handle_all sample_random model_ok
                [PDict hello; PDict ∅; PNone; PDict hello]
                (World {[ "/etc/hostname" := riff ]} 0 [])))
    !! "/etc/hostname"
  = files (World {[ "/etc/hostname" := riff ]} 0 []) !! "/etc/hostname".
Proof.
  apply (handle_all_frame sample_random model_ok).
  - exact model_ok_writes_only_destination.
  - reflexivity.
Defined.

Lemma handle_all_append_only_witness :
  files (snd (handle_all sample_random model_ok [PDict hello]
                (World {[ sample_path_next := riff ]} 0 [])))
    !! sample_path_next
  = files (World {[ sample_path_next := riff ]} 0 []) !! sample_path_next.
Proof.
  apply (handle_all_append_only sample_random model_ok).
  - exact model_ok_writes_only_destination.
  - intros i Hi.
    change (List.length (omap request_text [PDict hello])) with 1%nat in Hi.
    assert (i = 0%nat) as -> by lia.
    vm_compute. discriminate.
Defined.

(** ** What one request does to the files *)

Section Footprint.

Variable os_random : nat -> Byte.byte.
Variable model : pyval -> string -> filesystem -> filesystem * option exn.


End Footprint.


